(** * Renpho sensor platform: the sensor view of [custom_components/renpho/sensor.py]

    A shallow embedding of the [RenphoSensor] entity: its constructor, its
    read-only properties, the unit reconciliation performed by the [state]
    coroutine, and the coordinator it reads from.

    Metric values are Python floats, that is IEEE 754 binary64 numbers; they
    are embedded as Rocq's primitive [float], whose multiplication is the
    binary64 one.  Python's builtin [round] is embedded on the exact binary
    value of its argument. *)

From Stdlib Require Import ZArith NArith Bool List String Floats Lia.
Import ListNotations.

Local Open Scope Z_scope.

(* ================================================================= *)
(** ** Python floats *)

(** [n / d] rounded to the nearest integer, ties going to the even one
    (for [0 <= n] and [0 < d]). *)
Definition round_half_even (n d : Z) : Z :=
  let (q, r) := Z.div_eucl n d in
  match 2 * r ?= d with
  | Lt => q
  | Eq => if Z.even q then q else q + 1
  | Gt => q + 1
  end.

(** The binary64 number nearest to [(-1)^s * n / d], ties to even: what
    Python's correctly rounded string-to-float conversion computes. *)
Definition nearest_float (s : bool) (n d : Z) : float :=
  match n, d with
  | Zpos p, Zpos q =>
      SF2Prim (SFdiv prec emax (S754_finite s p 0) (S754_finite false q 0))
  | _, _ => SF2Prim (S754_zero s)
  end.

(** The float denoted by the decimal literal [n * 10^-k]: [float_literal
    70005 3] is Python's [70.005]. *)
Definition float_literal (n : Z) (k : N) : float :=
  nearest_float false n (10 ^ Z.of_N k).

(** Python's [round(number, ndigits)] on a float, for [0 <= ndigits]: the
    exact value of [number] is rounded half-to-even to [ndigits] decimals and
    the decimal result is converted back to the nearest float.  Zeros,
    infinities and NaN round to themselves. *)
Definition round (number : float) (ndigits : N) : float :=
  match Prim2SF number with
  | S754_finite s m e =>
      let p := 10 ^ Z.of_N ndigits in
      let q := if 0 <=? e
               then Zpos m * 2 ^ e * p
               else round_half_even (Zpos m * p) (2 ^ (- e)) in
      nearest_float s q p
  | _ => number
  end.

(* ================================================================= *)
(** ** Exceptions, results and log records *)

(** The exception classes the handlers of [state] tell apart.
    [ConnectionError] and [TimeoutError] stand for these classes and their
    subclasses; [OtherException] is any other subclass of [Exception];
    [ExitSignal] is a [BaseException] outside [Exception] (a cancellation,
    a keyboard interrupt), which is not an error. *)
Inductive exn : Type :=
| ConnectionError
| TimeoutError
| AttributeError
| OtherException (cls : string)
| ExitSignal (cls : string).

(** [isinstance(e, (ConnectionError, TimeoutError))]. *)
Definition is_connection_or_timeout (e : exn) : bool :=
  match e with
  | ConnectionError | TimeoutError => true
  | _ => false
  end.

(** [isinstance(e, Exception)]. *)
Definition is_Exception (e : exn) : bool :=
  match e with
  | ExitSignal _ => false
  | _ => true
  end.

(** The outcome of a call: a returned value or a raised exception. *)
Inductive result (A : Type) : Type :=
| Return (a : A)
| Raise (e : exn).
Arguments Return {A} a.
Arguments Raise {A} e.

(** Severity of a record written to [_LOGGER]. *)
Inductive level : Type := INFO | ERROR | CRITICAL.

(* ================================================================= *)
(** ** The coordinator, as the sensor sees it *)

(** The sensor holds a reference to a shared coordinator and uses two of its
    members.  [get_specific_metric metric_type metric user_id] yields a
    number, [None] when the metric is absent, or raises. *)
Record Coordinator : Type := {
  get_specific_metric : string -> string -> option string -> result (option float);
  last_update_success : bool
}.

(** One entry of [sensor_configurations]: the keyword arguments that
    [sensors_list] passes to the constructor.  The native [unit] may be
    absent ([None]). *)
Record SensorDescriptor : Type := {
  sd_id : string;
  sd_name : string;
  sd_unit : option string;
  sd_category : string;
  sd_label : string;
  sd_metric : string
}.

(** The attributes of a [RenphoSensor] instance.  [_state] holds a number or
    Python's [None].  [_timestamp] is [None] exactly while the attribute has
    not been bound on the instance: the code never assigns Python's [None]
    to it. *)
Record RenphoSensor : Type := {
  _metric : string;
  _id : string;
  _name : string;
  _unit : option string;
  _category : string;
  _label : string;
  _unit_of_measurement : option string;
  _state : option float;
  _timestamp : option string
}.

(** Python's [==] on the values a unit attribute can hold. *)
Definition unit_eqb (a b : option string) : bool :=
  match a, b with
  | Some x, Some y => String.eqb x y
  | None, None => true
  | _, _ => false
  end.

(** Truth value of a string in a condition. *)
Definition truthy (s : string) : bool := negb (String.eqb s EmptyString).

(** [RenphoSensor.__init__]. *)
Definition init (id name : string) (unit : option string)
    (category label metric : string) (unit_of_measurement : option string)
    : RenphoSensor :=
  {| _metric := metric;
     _id := id;
     _name := "Renpho " ++ name;
     _unit := unit;
     _category := category;
     _label := label;
     _unit_of_measurement := unit_of_measurement;
     _state := None;
     _timestamp := None |}.

(** [sensors_list]: one sensor per descriptor, all with the configured
    display preference. *)
Definition sensors_list (sensor_configurations : list SensorDescriptor)
    (preference : option string) : list RenphoSensor :=
  map (fun sensor =>
         init (sd_id sensor) (sd_name sensor) (sd_unit sensor)
              (sd_category sensor) (sd_label sensor) (sd_metric sensor)
              preference)
      sensor_configurations.

(** [available]. *)
Definition available (coordinator : Coordinator) (self : RenphoSensor) : bool :=
  last_update_success coordinator.

(** The dictionary built by the two attribute properties. *)
Record StateAttributes : Type := {
  attr_timestamp : string;
  attr_category : string;
  attr_label : string
}.

(** [device_state_attributes]: reading [self._timestamp] raises
    [AttributeError] while the attribute is unbound. *)
Definition device_state_attributes (self : RenphoSensor) : result StateAttributes :=
  match _timestamp self with
  | None => Raise AttributeError
  | Some ts =>
      Return {| attr_timestamp := ts;
                attr_category := _category self;
                attr_label := _label self |}
  end.

(** [extra_state_attributes]. *)
Definition extra_state_attributes (self : RenphoSensor) : result StateAttributes :=
  match _timestamp self with
  | None => Raise AttributeError
  | Some ts =>
      Return {| attr_timestamp := ts;
                attr_category := _category self;
                attr_label := _label self |}
  end.

(** [name], [category], [label]. *)
Definition name (self : RenphoSensor) : string := _name self.
Definition category (self : RenphoSensor) : string := _category self.
Definition label (self : RenphoSensor) : string := _label self.

(** Modelled from the spec: the conversion factor [KG_TO_LBS] of the
    constants module, which the unit reconciliation table gives as
    2.2046226218. *)
Definition KG_TO_LBS : float := float_literal 22046226218 10.

(* ================================================================= *)
(** ** The coordinator's refresh cycle *)

(** Modelled from the spec: the coordinator module, which is not part of the
    sources at hand.  The cache maps a metric key to its last fetched value
    and is replaced wholesale by a successful fetch.  Execution is a
    cooperative, single-threaded event loop, so a run is a sequence of atomic
    steps: a caller entering [request_refresh], or the upstream fetch in
    flight completing.  [in_flight] lists the callers attached to the fetch in
    flight, [upstream_calls] counts the fetches started, and [observed]
    records, for each resumed caller, the cache it was resumed with. *)
Definition Cache : Type := string -> option float.

Record CoordinatorState : Type := {
  cache : Cache;
  update_success : bool;
  in_flight : option (list string);
  upstream_calls : nat;
  observed : list (string * Cache)
}.

(** [get_metric]: a lookup in the cache; it starts no fetch. *)
Definition get_metric (st : CoordinatorState) (metric_key : string) : option float :=
  cache st metric_key.

(** [request_refresh] entered by [caller]: the first caller starts the
    upstream fetch, any later one attaches to the fetch in flight. *)
Definition request_refresh (caller : string) (st : CoordinatorState) : CoordinatorState :=
  match in_flight st with
  | Some waiters =>
      {| cache := cache st;
         update_success := update_success st;
         in_flight := Some (waiters ++ [caller]);
         upstream_calls := upstream_calls st;
         observed := observed st |}
  | None =>
      {| cache := cache st;
         update_success := update_success st;
         in_flight := Some [caller];
         upstream_calls := S (upstream_calls st);
         observed := observed st |}
  end.

(** The fetch in flight completes with [fetched]: a new snapshot, or an
    error.  A success swaps the cache, a failure keeps it and clears the
    flag; every attached caller is resumed with the resulting cache. *)
Definition complete_refresh (fetched : result Cache) (st : CoordinatorState) : CoordinatorState :=
  match in_flight st with
  | None => st
  | Some waiters =>
      let cache' := match fetched with
                    | Return snapshot => snapshot
                    | Raise _ => cache st
                    end in
      {| cache := cache';
         update_success := match fetched with Return _ => true | Raise _ => false end;
         in_flight := None;
         upstream_calls := upstream_calls st;
         observed := observed st ++ map (fun caller => (caller, cache')) waiters |}
  end.

(** [RenphoSensor.async_update_data]: the sensor asks its coordinator for a
    refresh and does nothing else. *)
Definition async_update_data (self : RenphoSensor) (st : CoordinatorState) : CoordinatorState :=
  request_refresh (_id self) st.

(* ================================================================= *)
(** ** Sample inputs *)

(** A coordinator whose lookup has the outcome [o] for every metric. *)
Definition coordinator_with (o : result (option float)) : Coordinator :=
  {| get_specific_metric := fun _ _ _ => o;
     last_update_success := true |}.

(** A mass descriptor reported in the native unit [u]. *)
Definition weight_descriptor (u : option string) : SensorDescriptor :=
  {| sd_id := "weight";
     sd_name := "Weight";
     sd_unit := u;
     sd_category := "Measurements";
     sd_label := "Weight";
     sd_metric := "weight" |}.

(** The sensor built from [weight_descriptor u] for the preference [p]. *)
Definition weight_sensor (u p : option string) : RenphoSensor :=
  init "weight" "Weight" u "Measurements" "Weight" "weight" p.

(** An idle coordinator with an empty cache. *)
Definition idle_coordinator : CoordinatorState :=
  {| cache := fun _ => None;
     update_success := true;
     in_flight := None;
     upstream_calls := 0;
     observed := [] |}.

(* ================================================================= *)
(** ** The rest of the entity *)

Section Host.

(** [should_poll]. *)
Definition should_poll (self : RenphoSensor) : bool := false.

(** [slugify] belongs to the host framework; it is left open. *)
Variable slugify : string -> string.

(** [unique_id]. *)
Definition unique_id (self : RenphoSensor) : string :=
  "renpho_" ++ slugify (_name self).

(* ================================================================= *)
(** ** Setting the platform up *)

(** The exceptions Python raises for a missing dictionary key and for a call
    that leaves a required argument out; both are subclasses of [Exception]
    and neither is a [ConnectionError]. *)
Definition KeyError : exn := OtherException "KeyError".
Definition TypeError : exn := OtherException "TypeError".

(** The configuration entry and the API client are opaque to this module. *)
Variables ConfigEntry RenphoWeight : Type.

(** The two entries of [hass.data] that the module reads, each absent
    ([None]) or present: [hass.data[DOMAIN]], the API client, and
    [hass.data[CONF_UNIT_OF_MEASUREMENT]], the display preference. *)
Record HomeAssistant : Type := {
  data_DOMAIN : option RenphoWeight;
  data_CONF_UNIT_OF_MEASUREMENT : option (option string)
}.

(** [create_coordinator] of the coordinator module and the coordinator's
    [async_config_entry_first_refresh] are left open: each returns or raises;
    the latter yields the coordinator as it is after its first refresh. *)
Variable create_coordinator :
  HomeAssistant -> RenphoWeight -> ConfigEntry -> result Coordinator.
Variable async_config_entry_first_refresh : Coordinator -> result Coordinator.

(** The list comprehension of [sensors_list].  The keyword argument
    [hass.data[CONF_UNIT_OF_MEASUREMENT]] is evaluated once per descriptor,
    so a missing entry raises [KeyError] at the first descriptor and is not
    looked at when there is none. *)
Fixpoint sensors_comprehension (hass : HomeAssistant)
    (sensor_configurations : list SensorDescriptor) : result (list RenphoSensor) :=
  match sensor_configurations with
  | [] => Return []
  | sensor :: rest =>
      match data_CONF_UNIT_OF_MEASUREMENT hass with
      | None => Raise KeyError
      | Some preference =>
          match sensors_comprehension hass rest with
          | Raise e => Raise e
          | Return entities =>
              Return (init (sd_id sensor) (sd_name sensor) (sd_unit sensor)
                           (sd_category sensor) (sd_label sensor) (sd_metric sensor)
                           preference :: entities)
          end
      end
  end.

(** A call of [sensors_list].  The function has three required parameters
    [hass], [config_entry] and [coordinator]; [coordinator] is [None] for a
    call site that passes two arguments only, and such a call raises
    [TypeError] before the body runs. *)
Definition async_sensors_list {A : Type}
    (sensor_configurations : list SensorDescriptor) (hass : HomeAssistant)
    (config_entry : A) (coordinator : option Coordinator)
    : result (list RenphoSensor) :=
  match coordinator with
  | None => Raise TypeError
  | Some _ => sensors_comprehension hass sensor_configurations
  end.

(** What a set-up function leaves behind: its result ([None], [False] or an
    exception), the entities registered through [async_add_entities] so far,
    and the records logged. *)
Record Setup : Type := {
  setup_returned : result (option bool);
  registered : list RenphoSensor;
  setup_logged : list level
}.

(** [async_setup]: it calls [sensors_list(hass, config_entry)]. *)
Definition async_setup (sensor_configurations : list SensorDescriptor)
    (hass : HomeAssistant) (config_entry : ConfigEntry)
    (entities : list RenphoSensor) : Setup :=
  match async_sensors_list sensor_configurations hass config_entry None with
  | Raise e =>
      {| setup_returned := Raise e; registered := entities; setup_logged := [] |}
  | Return sensor_entities =>
      {| setup_returned := Return None;
         registered := entities ++ sensor_entities;
         setup_logged := [] |}
  end.

(** [async_setup_entry]: the coordinator is created and refreshed once, then
    the sensors are built and registered; nothing is caught. *)
Definition async_setup_entry (sensor_configurations : list SensorDescriptor)
    (hass : HomeAssistant) (config_entry : ConfigEntry)
    (entities : list RenphoSensor) : Setup :=
  match data_DOMAIN hass with
  | None =>
      {| setup_returned := Raise KeyError; registered := entities; setup_logged := [] |}
  | Some api =>
      match create_coordinator hass api config_entry with
      | Raise e =>
          {| setup_returned := Raise e; registered := entities; setup_logged := [] |}
      | Return coordinator =>
          match async_config_entry_first_refresh coordinator with
          | Raise e =>
              {| setup_returned := Raise e; registered := entities; setup_logged := [] |}
          | Return coordinator' =>
              match async_sensors_list sensor_configurations hass config_entry
                                       (Some coordinator') with
              | Raise e =>
                  {| setup_returned := Raise e; registered := entities;
                     setup_logged := [] |}
              | Return sensor_entities =>
                  {| setup_returned := Return None;
                     registered := entities ++ sensor_entities;
                     setup_logged := [] |}
              end
          end
      end
  end.

(** [async_setup_platform]: it calls [sensors_list(hass, discovery_info)]
    and catches [ConnectionError] alone. *)
Definition async_setup_platform {Config DiscoveryInfo : Type}
    (sensor_configurations : list SensorDescriptor) (hass : HomeAssistant)
    (config : Config) (discovery_info : DiscoveryInfo)
    (entities : list RenphoSensor) : Setup :=
  match async_sensors_list sensor_configurations hass discovery_info None with
  | Return sensor_entities =>
      {| setup_returned := Return None;
         registered := entities ++ sensor_entities;
         setup_logged := [] |}
  | Raise ConnectionError =>
      {| setup_returned := Return (Some false);
         registered := entities;
         setup_logged := [ERROR] |}
  | Raise e =>
      {| setup_returned := Raise e; registered := entities; setup_logged := [] |}
  end.

End Host.

Arguments data_DOMAIN {RenphoWeight} _.
Arguments data_CONF_UNIT_OF_MEASUREMENT {RenphoWeight} _.
Arguments sensors_comprehension {RenphoWeight} hass sensor_configurations.
Arguments async_sensors_list {RenphoWeight A} sensor_configurations hass config_entry coordinator.
Arguments async_setup {ConfigEntry RenphoWeight} sensor_configurations hass config_entry entities.
Arguments async_setup_entry {ConfigEntry RenphoWeight} create_coordinator
  async_config_entry_first_refresh sensor_configurations hass config_entry entities.
Arguments async_setup_platform {RenphoWeight Config DiscoveryInfo}
  sensor_configurations hass config discovery_info entities.

(* ================================================================= *)
(** ** Units and state of a sensor *)

(** What one evaluation of [state] leaves behind: the coroutine's own result,
    the sensor afterwards and the records logged. *)
Record Outcome : Type := {
  returned : result (option float);
  sensor : RenphoSensor;
  logged : list level
}.

(** The surroundings of one evaluation of [state]: the coordinator as it is
    at that moment and the clock reading [datetime.now()], formatted. *)
Record Read : Type := {
  rd_coordinator : Coordinator;
  rd_now : string
}.

Section Sensor.

(** The unit names of the constants module, which is not part of the sources
    at hand: they are left open. *)
Variables MASS_KILOGRAMS MASS_POUNDS : string.

(** [unit_of_measurement].  In the last condition [and] binds tighter than
    [or], and the bare [MASS_POUNDS] operands count by their truth value;
    when no branch is taken the property yields [None]. *)
Definition unit_of_measurement (self : RenphoSensor) : option string :=
  if unit_eqb (_unit_of_measurement self) (Some MASS_POUNDS)
     && unit_eqb (_unit self) (Some MASS_KILOGRAMS)
  then Some MASS_POUNDS
  else if unit_eqb (_unit_of_measurement self) (Some MASS_KILOGRAMS)
          && unit_eqb (_unit self) (Some MASS_KILOGRAMS)
  then Some MASS_KILOGRAMS
  else if unit_eqb (_unit_of_measurement self) (Some MASS_POUNDS)
          && unit_eqb (_unit self) (Some MASS_POUNDS)
  then Some MASS_POUNDS
  else if unit_eqb (_unit_of_measurement self) (Some MASS_KILOGRAMS)
          || (truthy MASS_POUNDS && negb (unit_eqb (_unit self) (Some MASS_KILOGRAMS)))
          || truthy MASS_POUNDS
  then _unit self
  else None.

(** [unit]. *)
Definition unit (self : RenphoSensor) : option string :=
  if unit_eqb (_unit_of_measurement self) (Some MASS_POUNDS)
     && unit_eqb (_unit self) (Some MASS_KILOGRAMS)
  then Some MASS_POUNDS
  else if unit_eqb (_unit_of_measurement self) (Some MASS_KILOGRAMS)
          && unit_eqb (_unit self) (Some MASS_KILOGRAMS)
  then Some MASS_KILOGRAMS
  else if unit_eqb (_unit_of_measurement self) (Some MASS_POUNDS)
          && unit_eqb (_unit self) (Some MASS_POUNDS)
  then Some MASS_POUNDS
  else if unit_eqb (_unit_of_measurement self) (Some MASS_KILOGRAMS)
          || (truthy MASS_POUNDS && negb (unit_eqb (_unit self) (Some MASS_KILOGRAMS)))
          || truthy MASS_POUNDS
  then _unit self
  else None.

(** The sensor after the assignments of the branch that found a value. *)
Definition set_state_and_timestamp (self : RenphoSensor) (value : float)
    (timestamp : string) : RenphoSensor :=
  {| _metric := _metric self;
     _id := _id self;
     _name := _name self;
     _unit := _unit self;
     _category := _category self;
     _label := _label self;
     _unit_of_measurement := _unit_of_measurement self;
     _state := Some value;
     _timestamp := Some timestamp |}.

(** The sensor after [self._state = None]. *)
Definition clear_state (self : RenphoSensor) : RenphoSensor :=
  {| _metric := _metric self;
     _id := _id self;
     _name := _name self;
     _unit := _unit self;
     _category := _category self;
     _label := _label self;
     _unit_of_measurement := _unit_of_measurement self;
     _state := None;
     _timestamp := _timestamp self |}.

(** The body of the [try] block of [state].  The lookup is its first
    statement and the only one that can raise, so a raised exception leaves
    the sensor as it was. *)
Definition state_try (coordinator : Coordinator) (now : string)
    (self : RenphoSensor) : result (RenphoSensor * list level) :=
  match get_specific_metric coordinator (_metric self) (_id self) None with
  | Raise e => Raise e
  | Return (Some metric_value) =>
      let value :=
        if unit_eqb (_unit_of_measurement self) (Some MASS_POUNDS)
           && unit_eqb (_unit self) (Some MASS_KILOGRAMS)
        then round (metric_value * KG_TO_LBS)%float 2
        else if unit_eqb (_unit_of_measurement self) (Some MASS_KILOGRAMS)
                && unit_eqb (_unit self) (Some MASS_KILOGRAMS)
        then round metric_value 2
        else metric_value in
      Return (set_state_and_timestamp self value now, [INFO])
  | Return None => Return (clear_state self, [])
  end.

(** [state]: the [try] block with its two handlers.  The coroutine has no
    [return] statement, so whenever it finishes its result is [None]; an
    exception that neither handler matches propagates. *)
Definition state (coordinator : Coordinator) (now : string)
    (self : RenphoSensor) : Outcome :=
  match state_try coordinator now self with
  | Return (self', records) =>
      {| returned := Return None; sensor := self'; logged := records |}
  | Raise e =>
      if is_connection_or_timeout e
      then {| returned := Return None; sensor := self; logged := [ERROR] |}
      else if is_Exception e
      then {| returned := Return None; sensor := self; logged := [CRITICAL] |}
      else {| returned := Raise e; sensor := self; logged := [] |}
  end.

(** Whether an evaluation of [state] in the surroundings [r] obtains a
    metric value for [self]. *)
Definition finds_value (self : RenphoSensor) (r : Read) : bool :=
  match get_specific_metric (rd_coordinator r) (_metric self) (_id self) None with
  | Return (Some _) => true
  | _ => false
  end.

(** The sensor after a sequence of evaluations of [state]. *)
Definition run (reads : list Read) (self : RenphoSensor) : RenphoSensor :=
  fold_left (fun s r => sensor (state (rd_coordinator r) (rd_now r) s)) reads self.

(* ================================================================= *)
(** ** Reads over time *)

(** The clock reading of the last evaluation among [reads] that obtains a
    value for [self], if there is one. *)
Definition last_found (self : RenphoSensor) (reads : list Read) : option string :=
  fold_left (fun found r => if finds_value self r then Some (rd_now r) else found)
            reads None.

(* ================================================================= *)
(** ** Basic facts *)

Lemma round_half_even_nearest (n d : Z) :
  0 < d -> Z.abs (2 * (d * round_half_even n d - n)) <= d.
Proof.
  intros Hd. unfold round_half_even.
  pose proof (Z_div_mod n d ltac:(lia)) as Hdm.
  destruct (Z.div_eucl n d) as [q r]. destruct Hdm as [-> Hr].
  destruct (Z.compare_spec (2 * r) d); [destruct (Z.even q) | |]; lia.
Qed.

Lemma unit_eqb_spec (a b : option string) : unit_eqb a b = true <-> a = b.
Proof.
  destruct a as [x|], b as [y|]; simpl; try (split; congruence).
  rewrite String.eqb_eq. split; congruence.
Qed.

Lemma unit_eqb_refl (a : option string) : unit_eqb a a = true.
Proof. now apply unit_eqb_spec. Qed.

Lemma unit_eqb_neq (a b : option string) : a <> b -> unit_eqb a b = false.
Proof.
  intros Hab. destruct (unit_eqb a b) eqn:E; [|reflexivity].
  now apply unit_eqb_spec in E.
Qed.

Lemma float_literal_70_neq_7001 : float_literal 70 0 <> float_literal 7001 2.
Proof.
  intros H. apply (f_equal Prim2SF) in H. vm_compute in H. discriminate H.
Qed.

(** A read that obtains a value stores it, reconciled, with the clock
    reading, logs one record and returns [None]. *)
Lemma state_found (c : Coordinator) (now : string) (self : RenphoSensor) (v : float) :
  get_specific_metric c (_metric self) (_id self) None = Return (Some v) ->
  exists value,
    state c now self =
      {| returned := Return None;
         sensor := set_state_and_timestamp self value now;
         logged := [INFO] |}.
Proof.
  intros Hget. unfold state, state_try. rewrite Hget. eexists. reflexivity.
Qed.

(** A read that finds the metric absent clears [_state] and nothing else. *)
Lemma state_absent (c : Coordinator) (now : string) (self : RenphoSensor) :
  get_specific_metric c (_metric self) (_id self) None = Return None ->
  state c now self =
    {| returned := Return None; sensor := clear_state self; logged := [] |}.
Proof.
  intros Hget. unfold state, state_try. now rewrite Hget.
Qed.

(** A read whose lookup raises leaves the sensor as it was. *)
Lemma state_raised (c : Coordinator) (now : string) (self : RenphoSensor) (e : exn) :
  get_specific_metric c (_metric self) (_id self) None = Raise e ->
  sensor (state c now self) = self.
Proof.
  intros Hget. unfold state, state_try. rewrite Hget.
  destruct (is_connection_or_timeout e), (is_Exception e); reflexivity.
Qed.

(** No evaluation of [state] touches the attributes set by the constructor. *)
Lemma state_static (c : Coordinator) (now : string) (self : RenphoSensor) :
  let after := sensor (state c now self) in
  _metric after = _metric self /\ _id after = _id self
  /\ _name after = _name self /\ _unit after = _unit self
  /\ _category after = _category self /\ _label after = _label self
  /\ _unit_of_measurement after = _unit_of_measurement self.
Proof.
  unfold state, state_try.
  destruct (get_specific_metric c (_metric self) (_id self) None) as [[v|]|e];
    simpl; [tauto | tauto |].
  destruct (is_connection_or_timeout e), (is_Exception e); simpl; tauto.
Qed.

Lemma run_static (reads : list Read) (self : RenphoSensor) :
  let after := run reads self in
  _metric after = _metric self /\ _id after = _id self
  /\ _name after = _name self /\ _unit after = _unit self
  /\ _category after = _category self /\ _label after = _label self
  /\ _unit_of_measurement after = _unit_of_measurement self.
Proof.
  revert self. induction reads as [|r reads IH]; intros self; simpl.
  - tauto.
  - specialize (IH (sensor (state (rd_coordinator r) (rd_now r) self))).
    pose proof (state_static (rd_coordinator r) (rd_now r) self) as Hs.
    simpl in IH, Hs. unfold run in *. simpl.
    destruct IH as (-> & -> & -> & -> & -> & -> & ->). exact Hs.
Qed.

(** The timestamp is bound after a read exactly when it was bound before or
    the read found a value. *)
Lemma state_timestamp (r : Read) (self : RenphoSensor) :
  _timestamp (sensor (state (rd_coordinator r) (rd_now r) self)) = None <->
  _timestamp self = None /\ finds_value self r = false.
Proof.
  unfold state, state_try, finds_value.
  destruct (get_specific_metric (rd_coordinator r) (_metric self) (_id self) None)
    as [[v|]|e]; simpl.
  - split; [discriminate | intros [_ H]; discriminate H].
  - tauto.
  - destruct (is_connection_or_timeout e), (is_Exception e); simpl; tauto.
Qed.

Lemma finds_value_static (s s' : RenphoSensor) (r : Read) :
  _metric s' = _metric s -> _id s' = _id s -> finds_value s' r = finds_value s r.
Proof. unfold finds_value. now intros -> ->. Qed.

Lemma run_timestamp (reads : list Read) (self : RenphoSensor) :
  _timestamp (run reads self) = None <->
  _timestamp self = None /\ existsb (finds_value self) reads = false.
Proof.
  revert self. induction reads as [|r reads IH]; intros self.
  - simpl. tauto.
  - change (run (r :: reads) self)
      with (run reads (sensor (state (rd_coordinator r) (rd_now r) self))).
    rewrite IH, state_timestamp. simpl. rewrite orb_false_iff.
    pose proof (state_static (rd_coordinator r) (rd_now r) self) as (Hm & Hi & _).
    assert (Hext : existsb (finds_value (sensor (state (rd_coordinator r) (rd_now r) self))) reads
                   = existsb (finds_value self) reads).
    { clear IH. induction reads as [|r' reads IH']; simpl; [reflexivity|].
      rewrite IH'. f_equal. now apply finds_value_static. }
    rewrite Hext. tauto.
Qed.

(** A caller that requests a refresh while a fetch is in flight only joins
    its waiters. *)
Lemma request_in_flight (o : RenphoSensor) (st : CoordinatorState)
    (waiters : list string) :
  in_flight st = Some waiters ->
  in_flight (async_update_data o st) = Some (waiters ++ [_id o])
  /\ upstream_calls (async_update_data o st) = upstream_calls st
  /\ cache (async_update_data o st) = cache st
  /\ observed (async_update_data o st) = observed st.
Proof.
  intros Hw. unfold async_update_data, request_refresh. rewrite Hw. simpl. tauto.
Qed.

Lemma requests_in_flight (others : list RenphoSensor) (st : CoordinatorState)
    (waiters : list string) :
  in_flight st = Some waiters ->
  let st' := fold_left (fun s o => async_update_data o s) others st in
  in_flight st' = Some (waiters ++ map _id others)
  /\ upstream_calls st' = upstream_calls st
  /\ cache st' = cache st
  /\ observed st' = observed st.
Proof.
  revert st waiters. induction others as [|o others IH]; intros st waiters Hw; simpl.
  - rewrite app_nil_r. tauto.
  - destruct (request_in_flight o st waiters Hw) as (Hf & Hu & Hc & Ho).
    destruct (IH _ _ Hf) as (IHf & IHu & IHc & IHo).
    rewrite IHf, IHu, IHc, IHo, Hu, Hc, Ho, <- app_assoc. simpl. tauto.
Qed.

(* ================================================================= *)
(** ** Unit reconciliation *)

(** C1: when the native unit is kilograms and the display preference is
    pounds, a state read that obtains the value [v] sets the rendered value
    to [v] times 2.2046226218 rounded to 2 decimals, and the emitted unit is
    pounds; for the input 70.0 the rendered value is 154.32. *)
Theorem state_kilograms_to_pounds (c : Coordinator) (now : string)
    (self : RenphoSensor) (v : float) :
  _unit self = Some MASS_KILOGRAMS ->
  _unit_of_measurement self = Some MASS_POUNDS ->
  get_specific_metric c (_metric self) (_id self) None = Return (Some v) ->
  let after := sensor (state c now self) in
  _state after = Some (round (v * KG_TO_LBS)%float 2)
  /\ unit_of_measurement after = Some MASS_POUNDS
  /\ unit after = Some MASS_POUNDS
  /\ (v = float_literal 70 0 -> _state after = Some (float_literal 15432 2)).
Proof.
  intros Hunit Hpref Hget after.
  assert (Hstate : _state after = Some (round (v * KG_TO_LBS)%float 2)).
  { subst after. unfold state, state_try. rewrite Hget, Hunit, Hpref.
    rewrite !unit_eqb_refl. reflexivity. }
  assert (Hu : _unit after = Some MASS_KILOGRAMS
               /\ _unit_of_measurement after = Some MASS_POUNDS).
  { destruct (state_static c now self) as (_ & _ & _ & Hu & _ & _ & Hp).
    subst after. now rewrite Hu, Hp. }
  destruct Hu as [Hu Hp].
  repeat split.
  - exact Hstate.
  - unfold unit_of_measurement. now rewrite Hu, Hp, !unit_eqb_refl.
  - unfold unit. now rewrite Hu, Hp, !unit_eqb_refl.
  - intros ->. rewrite Hstate. vm_compute. reflexivity.
Qed.

(** C3 (amended): when the native unit and the display preference are both
    kilograms, the rendered value is the cached float rounded to 2 decimals,
    half-way cases of its exact binary value going to the even neighbour; the
    float written 70.005 lies below 70.005 and is rendered as 70.0. *)
Theorem state_kilograms_rounds (c : Coordinator) (now : string)
    (self : RenphoSensor) (v : float) :
  MASS_KILOGRAMS <> MASS_POUNDS ->
  _unit self = Some MASS_KILOGRAMS ->
  _unit_of_measurement self = Some MASS_KILOGRAMS ->
  get_specific_metric c (_metric self) (_id self) None = Return (Some v) ->
  let after := sensor (state c now self) in
  _state after = Some (round v 2)
  /\ unit_of_measurement after = Some MASS_KILOGRAMS
  /\ (v = float_literal 70005 3 -> _state after = Some (float_literal 70 0)).
Proof.
  intros Hne Hunit Hpref Hget after.
  assert (Hkp : unit_eqb (Some MASS_KILOGRAMS) (Some MASS_POUNDS) = false)
    by (apply unit_eqb_neq; congruence).
  assert (Hstate : _state after = Some (round v 2)).
  { subst after. unfold state, state_try. rewrite Hget, Hunit, Hpref.
    rewrite Hkp, !unit_eqb_refl. reflexivity. }
  destruct (state_static c now self) as (_ & _ & _ & Hu & _ & _ & Hp).
  fold after in Hu, Hp. rewrite Hunit in Hu. rewrite Hpref in Hp.
  repeat split.
  - exact Hstate.
  - unfold unit_of_measurement. now rewrite Hu, Hp, Hkp, !unit_eqb_refl.
  - intros ->. rewrite Hstate. vm_compute. reflexivity.
Qed.

(** C4: for native unit pounds with preference pounds, and for every native
    unit that is neither kilograms nor pounds (an absent one included), a
    state read stores the value unchanged and returns normally, and the
    emitted unit is the native unit. *)
Theorem state_passes_through (c : Coordinator) (now : string)
    (self : RenphoSensor) (v : float) :
  MASS_KILOGRAMS <> MASS_POUNDS ->
  MASS_POUNDS <> EmptyString ->
  (_unit self = Some MASS_POUNDS /\ _unit_of_measurement self = Some MASS_POUNDS)
  \/ (_unit self <> Some MASS_KILOGRAMS /\ _unit self <> Some MASS_POUNDS) ->
  get_specific_metric c (_metric self) (_id self) None = Return (Some v) ->
  let after := sensor (state c now self) in
  returned (state c now self) = Return None
  /\ _state after = Some v
  /\ unit_of_measurement after = _unit self
  /\ unit after = _unit self.
Proof.
  intros Hne Hlb Hcase Hget after.
  assert (Hkg : unit_eqb (_unit self) (Some MASS_KILOGRAMS) = false).
  { apply unit_eqb_neq. destruct Hcase as [[-> _]|[H _]]; congruence. }
  assert (Htruthy : truthy MASS_POUNDS = true).
  { unfold truthy. apply negb_true_iff. now apply String.eqb_neq. }
  destruct (state_static c now self) as (_ & _ & _ & Hu & _ & _ & Hp).
  fold after in Hu, Hp.
  assert (Hunits : unit_of_measurement after = _unit self /\ unit after = _unit self).
  { unfold unit_of_measurement, unit. rewrite Hu, Hp, Hkg, Htruthy.
    rewrite !andb_false_r, orb_true_r.
    destruct Hcase as [[H1 H2]|[_ H2]].
    - rewrite H1, H2, !unit_eqb_refl. simpl. tauto.
    - rewrite (unit_eqb_neq _ _ H2), andb_false_r. tauto. }
  repeat split; try tauto.
  - unfold state, state_try. now rewrite Hget.
  - subst after. unfold state, state_try. rewrite Hget, Hkg.
    now rewrite !andb_false_r.
Qed.

(** C7: converting [v] from kilograms to pounds and reading the result
    again through a sensor whose native unit and preference are both pounds
    renders the same value. *)
Theorem reconciliation_idempotent (c1 c2 : Coordinator) (now1 now2 : string)
    (s1 s2 : RenphoSensor) (v r : float) :
  MASS_KILOGRAMS <> MASS_POUNDS ->
  _unit s1 = Some MASS_KILOGRAMS ->
  _unit_of_measurement s1 = Some MASS_POUNDS ->
  get_specific_metric c1 (_metric s1) (_id s1) None = Return (Some v) ->
  _state (sensor (state c1 now1 s1)) = Some r ->
  _unit s2 = Some MASS_POUNDS ->
  _unit_of_measurement s2 = Some MASS_POUNDS ->
  get_specific_metric c2 (_metric s2) (_id s2) None = Return (Some r) ->
  r = round (v * KG_TO_LBS)%float 2
  /\ _state (sensor (state c2 now2 s2)) = Some r.
Proof.
  intros Hne Hu1 Hp1 Hget1 Hr Hu2 Hp2 Hget2.
  split.
  - revert Hr. unfold state, state_try. rewrite Hget1, Hu1, Hp1.
    rewrite !unit_eqb_refl. simpl. congruence.
  - unfold state, state_try. rewrite Hget2, Hu2, Hp2.
    assert (Hpk : unit_eqb (Some MASS_POUNDS) (Some MASS_KILOGRAMS) = false)
      by (apply unit_eqb_neq; congruence).
    rewrite Hpk, !andb_false_r. reflexivity.
Qed.

(** C9: [unit] and [unit_of_measurement] are the same function of the
    display preference and the native unit. *)
Theorem unit_is_unit_of_measurement (self : RenphoSensor) :
  unit self = unit_of_measurement self.
Proof.
  unfold unit, unit_of_measurement.
  destruct (unit_eqb (_unit_of_measurement self) (Some MASS_POUNDS)),
           (unit_eqb (_unit_of_measurement self) (Some MASS_KILOGRAMS)),
           (unit_eqb (_unit self) (Some MASS_KILOGRAMS)),
           (unit_eqb (_unit self) (Some MASS_POUNDS)),
           (truthy MASS_POUNDS); reflexivity.
Qed.

(* ================================================================= *)
(** ** Failures, identity and attributes *)

(** C5: when the coordinator lookup raises an error (a connectivity error,
    a timeout or any other [Exception]), the state read returns normally and
    the rendered value and the timestamp stay as they were. *)
Theorem state_never_faults (c : Coordinator) (now : string)
    (self : RenphoSensor) (e : exn) :
  get_specific_metric c (_metric self) (_id self) None = Raise e ->
  is_Exception e = true ->
  returned (state c now self) = Return None
  /\ _state (sensor (state c now self)) = _state self
  /\ _timestamp (sensor (state c now self)) = _timestamp self.
Proof.
  intros Hget Herr. rewrite (state_raised c now self e Hget).
  repeat split. unfold state, state_try. rewrite Hget, Herr.
  destruct (is_connection_or_timeout e); reflexivity.
Qed.

(** C6 (amended): for every sensor built from the configuration list and
    after any sequence of state reads, the category and the label are those
    of its descriptor, and the display name is the descriptor's name with
    "Renpho " in front. *)
Theorem identity_fields_fixed (sensor_configurations : list SensorDescriptor)
    (preference : option string) (reads : list Read) (i : nat)
    (d : SensorDescriptor) :
  nth_error sensor_configurations i = Some d ->
  exists s,
    nth_error (sensors_list sensor_configurations preference) i = Some s
    /\ category (run reads s) = sd_category d
    /\ label (run reads s) = sd_label d
    /\ name (run reads s) = ("Renpho " ++ sd_name d)%string.
Proof.
  intros Hd. unfold sensors_list.
  eexists. split.
  - apply map_nth_error. exact Hd.
  - unfold category, label, name.
    match goal with |- context [run reads ?s] =>
      destruct (run_static reads s) as (_ & _ & Hn & _ & Hc & Hl & _)
    end.
    rewrite Hn, Hc, Hl. simpl. tauto.
Qed.

(** C10: as long as no state read has obtained a metric value, both
    attribute properties fail on the missing [_timestamp]: the constructor
    leaves it unbound and only a read that finds a value binds it. *)
Theorem attributes_fail_before_first_value (id nm : string) (u : option string)
    (cat lab metric : string) (preference : option string) (reads : list Read) :
  let s0 := init id nm u cat lab metric preference in
  existsb (finds_value s0) reads = false ->
  _timestamp s0 = None
  /\ extra_state_attributes (run reads s0) = Raise AttributeError
  /\ device_state_attributes (run reads s0) = Raise AttributeError.
Proof.
  intros s0 Hnone.
  assert (Hts : _timestamp (run reads s0) = None).
  { apply run_timestamp. split; [reflexivity | exact Hnone]. }
  unfold extra_state_attributes, device_state_attributes. rewrite Hts.
  repeat split.
Qed.

(** C8: when sensors request a refresh while the fetch started by the first
    of them is in flight, one upstream fetch is issued and, once it
    completes, every caller is resumed with the same cache. *)
Theorem refresh_coalesces (st : CoordinatorState) (first : RenphoSensor)
    (others : list RenphoSensor) (fetched : result Cache) :
  in_flight st = None ->
  let st' := complete_refresh fetched
               (fold_left (fun s o => async_update_data o s) others
                          (async_update_data first st)) in
  upstream_calls st' = S (upstream_calls st)
  /\ observed st' = observed st ++ map (fun o => (_id o, cache st')) (first :: others)
  /\ in_flight st' = None.
Proof.
  intros Hidle st'.
  assert (Hfirst : in_flight (async_update_data first st) = Some [_id first]
                   /\ upstream_calls (async_update_data first st) = S (upstream_calls st)
                   /\ cache (async_update_data first st) = cache st
                   /\ observed (async_update_data first st) = observed st).
  { unfold async_update_data, request_refresh. rewrite Hidle. simpl. tauto. }
  destruct Hfirst as (Hf & Hu & Hc & Ho).
  destruct (requests_in_flight others _ _ Hf) as (Hf' & Hu' & Hc' & Ho').
  subst st'. unfold complete_refresh. rewrite Hf'. simpl.
  rewrite Hu', Hu, Ho', Ho, Hc', Hc.
  repeat split. f_equal. simpl. f_equal. now rewrite map_map.
Qed.

(* ================================================================= *)
(** ** Further properties of the units and the state *)

Lemma truthy_nonempty (s : string) : s <> EmptyString -> truthy s = true.
Proof.
  intros Hs. unfold truthy. apply negb_true_iff. now apply String.eqb_neq.
Qed.

(** X1: the four branches of [unit_of_measurement] amount to two cases: a
    kilogram sensor shown with the pound preference emits pounds, every
    other sensor emits its native unit, whatever the preference. *)
Theorem unit_of_measurement_two_cases (self : RenphoSensor) :
  MASS_POUNDS <> EmptyString ->
  unit_of_measurement self =
    if unit_eqb (_unit_of_measurement self) (Some MASS_POUNDS)
       && unit_eqb (_unit self) (Some MASS_KILOGRAMS)
    then Some MASS_POUNDS
    else _unit self.
Proof.
  intros Hlb. unfold unit_of_measurement. rewrite (truthy_nonempty _ Hlb).
  destruct (unit_eqb (_unit_of_measurement self) (Some MASS_POUNDS)) eqn:Hp,
           (unit_eqb (_unit self) (Some MASS_KILOGRAMS)) eqn:Hk,
           (unit_eqb (_unit_of_measurement self) (Some MASS_KILOGRAMS)) eqn:Hpk,
           (unit_eqb (_unit self) (Some MASS_POUNDS)) eqn:Hl;
    simpl; try reflexivity.
  all: first [ apply unit_eqb_spec in Hk; rewrite Hk; reflexivity
             | apply unit_eqb_spec in Hl; rewrite Hl; reflexivity ].
Qed.

(** X2: the value and the unit go together: when the emitted unit differs
    from the native one the stored value is the converted one, and when it
    is the native one the stored value is the metric, at most rounded. *)
Theorem conversion_follows_unit (c : Coordinator) (now : string)
    (self : RenphoSensor) (v : float) :
  MASS_KILOGRAMS <> MASS_POUNDS ->
  MASS_POUNDS <> EmptyString ->
  get_specific_metric c (_metric self) (_id self) None = Return (Some v) ->
  let after := sensor (state c now self) in
  (unit_of_measurement after <> _unit after ->
   _state after = Some (round (v * KG_TO_LBS)%float 2))
  /\ (unit_of_measurement after = _unit after ->
      _state after = Some v \/ _state after = Some (round v 2)).
Proof.
  intros Hne Hlb Hget after.
  destruct (state_static c now self) as (_ & _ & _ & Hu & _ & _ & Hp).
  fold after in Hu, Hp.
  rewrite (unit_of_measurement_two_cases after Hlb), Hu, Hp.
  assert (Hstate : _state after =
            Some (if unit_eqb (_unit_of_measurement self) (Some MASS_POUNDS)
                     && unit_eqb (_unit self) (Some MASS_KILOGRAMS)
                  then round (v * KG_TO_LBS)%float 2
                  else if unit_eqb (_unit_of_measurement self) (Some MASS_KILOGRAMS)
                          && unit_eqb (_unit self) (Some MASS_KILOGRAMS)
                  then round v 2
                  else v)).
  { subst after. unfold state, state_try. now rewrite Hget. }
  rewrite Hstate.
  destruct (unit_eqb (_unit_of_measurement self) (Some MASS_POUNDS)
            && unit_eqb (_unit self) (Some MASS_KILOGRAMS)) eqn:Hconv.
  - split; [reflexivity |].
    apply andb_true_iff in Hconv. destruct Hconv as [_ Hk].
    apply unit_eqb_spec in Hk. rewrite Hk. intros H. congruence.
  - split; [congruence |]. intros _.
    destruct (unit_eqb (_unit_of_measurement self) (Some MASS_KILOGRAMS)
              && unit_eqb (_unit self) (Some MASS_KILOGRAMS)); [right | left];
      reflexivity.
Qed.

(** X3: a sensor whose native unit is pounds is never converted: whatever
    the preference, kilograms included, the value is stored unchanged and
    the emitted unit is pounds. *)
Theorem pounds_never_converted (c : Coordinator) (now : string)
    (self : RenphoSensor) (v : float) :
  MASS_KILOGRAMS <> MASS_POUNDS ->
  MASS_POUNDS <> EmptyString ->
  _unit self = Some MASS_POUNDS ->
  get_specific_metric c (_metric self) (_id self) None = Return (Some v) ->
  let after := sensor (state c now self) in
  _state after = Some v /\ unit_of_measurement after = Some MASS_POUNDS.
Proof.
  intros Hne Hlb Hunit Hget after.
  assert (Hk : unit_eqb (Some MASS_POUNDS) (Some MASS_KILOGRAMS) = false)
    by (apply unit_eqb_neq; congruence).
  destruct (state_static c now self) as (_ & _ & _ & Hu & _ & _ & Hp).
  fold after in Hu, Hp. split.
  - subst after. unfold state, state_try. rewrite Hget, Hunit, Hk.
    now rewrite !andb_false_r.
  - rewrite (unit_of_measurement_two_cases after Hlb), Hu, Hunit, Hk.
    now rewrite andb_false_r.
Qed.

(** X4: with a preference that is neither unit name (an absent one
    included) nothing is converted and nothing is rounded, not even for a
    kilogram sensor, and the emitted unit is the native one. *)
Theorem unknown_preference_passes_through (c : Coordinator) (now : string)
    (self : RenphoSensor) (v : float) :
  MASS_POUNDS <> EmptyString ->
  _unit_of_measurement self <> Some MASS_KILOGRAMS ->
  _unit_of_measurement self <> Some MASS_POUNDS ->
  get_specific_metric c (_metric self) (_id self) None = Return (Some v) ->
  let after := sensor (state c now self) in
  _state after = Some v /\ unit_of_measurement after = _unit self.
Proof.
  intros Hlb Hnk Hnp Hget after.
  destruct (state_static c now self) as (_ & _ & _ & Hu & _ & _ & Hp).
  fold after in Hu, Hp. split.
  - subst after. unfold state, state_try.
    rewrite Hget, (unit_eqb_neq _ _ Hnk), (unit_eqb_neq _ _ Hnp). reflexivity.
  - rewrite (unit_of_measurement_two_cases after Hlb), Hu, Hp.
    now rewrite (unit_eqb_neq _ _ Hnp).
Qed.

(** X5: a read that obtains a value overwrites whatever earlier reads left
    behind: the sensor it produces is the one a first read would produce, so
    reading again never converts a value twice. *)
Theorem state_found_forgets_history (c : Coordinator) (now : string)
    (reads : list Read) (self : RenphoSensor) (v : float) :
  get_specific_metric c (_metric self) (_id self) None = Return (Some v) ->
  sensor (state c now (run reads self)) = sensor (state c now self).
Proof.
  intros Hget.
  destruct (run_static reads self) as (Hm & Hi & Hn & Hu & Hc & Hl & Hp).
  unfold state, state_try. rewrite Hm, Hi, Hget.
  cbn [sensor]. unfold set_state_and_timestamp.
  now rewrite Hm, Hi, Hn, Hu, Hc, Hl, Hp.
Qed.

Lemma run_timestamp_fold (s0 : RenphoSensor) (reads : list Read) (self : RenphoSensor) :
  _metric self = _metric s0 -> _id self = _id s0 ->
  _timestamp (run reads self) =
    fold_left (fun found r => if finds_value s0 r then Some (rd_now r) else found)
              reads (_timestamp self).
Proof.
  revert self. induction reads as [|r reads IH]; intros self Hm Hi; [reflexivity|].
  change (run (r :: reads) self)
    with (run reads (sensor (state (rd_coordinator r) (rd_now r) self))).
  destruct (state_static (rd_coordinator r) (rd_now r) self) as (Hm' & Hi' & _).
  rewrite IH by congruence. simpl. f_equal.
  rewrite (finds_value_static self s0 r) by congruence.
  unfold state, state_try, finds_value.
  destruct (get_specific_metric (rd_coordinator r) (_metric self) (_id self) None)
    as [[x|]|e]; try reflexivity.
  destruct (is_connection_or_timeout e), (is_Exception e); reflexivity.
Qed.

(** X6: after any sequence of reads of a new sensor, both attribute
    properties fail if no read has obtained a value, and otherwise report
    the clock reading of the last read that did, with the category and the
    label given to the constructor; absent metrics and failed lookups in
    between leave that timestamp in place. *)
Theorem attributes_report_last_found (id nm : string) (u : option string)
    (cat lab metric : string) (preference : option string) (reads : list Read) :
  let s0 := init id nm u cat lab metric preference in
  let expected :=
    match last_found s0 reads with
    | None => Raise AttributeError
    | Some ts =>
        Return {| attr_timestamp := ts; attr_category := cat; attr_label := lab |}
    end in
  extra_state_attributes (run reads s0) = expected
  /\ device_state_attributes (run reads s0) = expected.
Proof.
  intros s0 expected.
  pose proof (run_timestamp_fold s0 reads s0 eq_refl eq_refl) as Hts.
  destruct (run_static reads s0) as (_ & _ & _ & _ & Hc & Hl & _).
  unfold extra_state_attributes, device_state_attributes.
  rewrite Hts, Hc, Hl. subst expected. unfold last_found. simpl.
  destruct (fold_left _ reads None); split; reflexivity.
Qed.

(** X7: a state read raises to its caller exactly when the lookup raised
    something that is no [Exception]; it raises that very exception, logs
    nothing and leaves the sensor as it was. *)
Theorem state_raises_iff_exit_signal (c : Coordinator) (now : string)
    (self : RenphoSensor) (e : exn) :
  returned (state c now self) = Raise e <->
  get_specific_metric c (_metric self) (_id self) None = Raise e
  /\ is_Exception e = false.
Proof.
  unfold state, state_try.
  destruct (get_specific_metric c (_metric self) (_id self) None) as [[x|]|e'].
  - simpl. split; [discriminate | intros [H _]; discriminate H].
  - simpl. split; [discriminate | intros [H _]; discriminate H].
  - split.
    + destruct e'; simpl; intros H; try discriminate H.
      injection H as <-. split; reflexivity.
    + intros [H He]. injection H as ->. destruct e; simpl in *;
        try discriminate He. reflexivity.
Qed.

(** X8: the emitted unit is fixed for the life of the sensor: after any
    sequence of state reads both unit properties give what they gave at the
    start. *)
Theorem emitted_unit_is_stable (reads : list Read) (self : RenphoSensor) :
  unit_of_measurement (run reads self) = unit_of_measurement self
  /\ unit (run reads self) = unit self.
Proof.
  destruct (run_static reads self) as (_ & _ & _ & Hu & _ & _ & Hp).
  unfold unit_of_measurement, unit. now rewrite Hu, Hp.
Qed.

(* ================================================================= *)
(** ** Properties of the set-up *)

(** X9: [sensors_list] builds one sensor per descriptor, in the order of the
    configuration list, each with no rendered value, no timestamp and the
    shared preference. *)
Theorem sensors_list_shape (sensor_configurations : list SensorDescriptor)
    (preference : option string) :
  let sensors := sensors_list sensor_configurations preference in
  List.length sensors = List.length sensor_configurations
  /\ map _id sensors = map sd_id sensor_configurations
  /\ map _metric sensors = map sd_metric sensor_configurations
  /\ map _unit sensors = map sd_unit sensor_configurations
  /\ Forall (fun s => _state s = None /\ _timestamp s = None
                      /\ _unit_of_measurement s = preference) sensors.
Proof.
  unfold sensors_list. cbv zeta.
  rewrite length_map, !map_map. simpl.
  repeat split. apply Forall_map, Forall_forall. intros d _. simpl. tauto.
Qed.

(** X10: with a coordinator passed, the call of [sensors_list] returns the
    sensors for the configured preference; when the preference is missing
    from [hass.data] it raises [KeyError], unless the configuration list is
    empty, in which case the entry is never looked up. *)
Theorem async_sensors_list_result (RenphoWeight A : Type)
    (sensor_configurations : list SensorDescriptor)
    (hass : HomeAssistant RenphoWeight) (config_entry : A) (c : Coordinator) :
  async_sensors_list sensor_configurations hass config_entry (Some c) =
    match data_CONF_UNIT_OF_MEASUREMENT hass, sensor_configurations with
    | Some preference, _ => Return (sensors_list sensor_configurations preference)
    | None, [] => Return []
    | None, _ :: _ => Raise KeyError
    end.
Proof.
  unfold async_sensors_list.
  destruct (data_CONF_UNIT_OF_MEASUREMENT hass) as [preference|] eqn:Hp.
  - induction sensor_configurations as [|d rest IH]; simpl; [reflexivity|].
    now rewrite Hp, IH.
  - destruct sensor_configurations; simpl; [reflexivity | now rewrite Hp].
Qed.

(** X11: [async_setup_entry] registers all sensors or none: when it raises,
    the registered entities are as before; when it returns, it returns
    [None] and has appended the sensors of the whole configuration list. *)
Theorem async_setup_entry_all_or_nothing (ConfigEntry RenphoWeight : Type)
    (create_coordinator :
       HomeAssistant RenphoWeight -> RenphoWeight -> ConfigEntry -> result Coordinator)
    (first_refresh : Coordinator -> result Coordinator)
    (sensor_configurations : list SensorDescriptor)
    (hass : HomeAssistant RenphoWeight) (config_entry : ConfigEntry)
    (entities : list RenphoSensor) :
  let o := async_setup_entry create_coordinator first_refresh
             sensor_configurations hass config_entry entities in
  match setup_returned o with
  | Raise _ => registered o = entities
  | Return r =>
      r = None
      /\ exists preference,
           registered o = entities ++ sensors_list sensor_configurations preference
  end.
Proof.
  cbv zeta. unfold async_setup_entry.
  destruct (data_DOMAIN hass) as [api|]; [|reflexivity].
  destruct (create_coordinator hass api config_entry) as [coordinator|e]; [|reflexivity].
  destruct (first_refresh coordinator) as [coordinator'|e]; [|reflexivity].
  rewrite async_sensors_list_result.
  destruct (data_CONF_UNIT_OF_MEASUREMENT hass) as [preference|].
  - simpl. split; [reflexivity|]. now exists preference.
  - destruct sensor_configurations; simpl; [|reflexivity].
    split; [reflexivity|]. now exists None.
Qed.

(** X12: [async_setup] and [async_setup_platform] call [sensors_list]
    without a coordinator: whatever they are given, they raise [TypeError]
    and register nothing; the handler of [async_setup_platform] does not
    catch it, so that function never returns [False]. *)
Theorem setup_without_coordinator_fails (ConfigEntry RenphoWeight Config DiscoveryInfo : Type)
    (sensor_configurations : list SensorDescriptor)
    (hass : HomeAssistant RenphoWeight) (config_entry : ConfigEntry)
    (config : Config) (discovery_info : DiscoveryInfo)
    (entities : list RenphoSensor) :
  async_setup sensor_configurations hass config_entry entities
    = {| setup_returned := Raise TypeError; registered := entities; setup_logged := [] |}
  /\ async_setup_platform sensor_configurations hass config discovery_info entities
    = {| setup_returned := Raise TypeError; registered := entities; setup_logged := [] |}.
Proof. split; reflexivity. Qed.

(** X13: the unique id of a sensor is fixed by the name of its descriptor
    alone: it is "renpho_" followed by the slug of "Renpho " and that name,
    it does not depend on the descriptor's id, and no state read changes
    it. *)
Theorem unique_id_from_name (slugify : string -> string) (id nm : string)
    (u : option string) (cat lab metric : string) (preference : option string)
    (reads : list Read) :
  unique_id slugify (run reads (init id nm u cat lab metric preference))
  = ("renpho_" ++ slugify ("Renpho " ++ nm))%string.
Proof.
  unfold unique_id.
  destruct (run_static reads (init id nm u cat lab metric preference))
    as (_ & _ & Hn & _).
  now rewrite Hn.
Qed.

End Sensor.

(* ================================================================= *)
(** ** The properties at concrete inputs *)

Local Open Scope string_scope.

Lemma kg_neq_lb : "kg" <> "lb".
Proof. discriminate. Qed.

Lemma lb_not_empty : "lb" <> "".
Proof. discriminate. Qed.

(** The literals of the model are the floats Python reads. *)
Example float_literal_values :
  KG_TO_LBS = 0x1.1a3112f6538e3p+1%float
  /\ float_literal 70005 3 = 0x1.18051eb851eb8p+6%float
  /\ float_literal 15432 2 = 0x1.34a3d70a3d70ap+7%float
  /\ float_literal 7001 2 = 0x1.180a3d70a3d71p+6%float.
Proof. vm_compute. repeat split. Qed.

(** [round] on half-way literals, a negative value near zero, a large value
    with few fractional bits, the smallest subnormal, and the special values. *)
Example round_values :
  round (float_literal 2675 3) 2 = float_literal 267 2
  /\ round (float_literal 125 3) 2 = float_literal 12 2
  /\ round (float_literal 375 3) 2 = float_literal 38 2
  /\ round (- float_literal 1 3) 2 = (- 0)%float
  /\ round (float_literal 950000000000000151 4) 2 = float_literal 9500000000000002 2
  /\ round 0x1p-1074%float 2 = 0%float
  /\ round infinity 2 = infinity
  /\ round nan 2 = nan.
Proof. vm_compute. repeat split. Qed.

(** 70.0 kg is rendered as 154.32 lb. *)
Lemma state_kilograms_to_pounds_witness :
  let c := coordinator_with (Return (Some (float_literal 70 0))) in
  let after := sensor (state "kg" "lb" c "2024-05-01 08:00:00"
                             (weight_sensor (Some "kg") (Some "lb"))) in
  _state after = Some (float_literal 15432 2)
  /\ unit_of_measurement "kg" "lb" after = Some "lb".
Proof.
  intros c after.
  destruct (state_kilograms_to_pounds "kg" "lb" c "2024-05-01 08:00:00"
              (weight_sensor (Some "kg") (Some "lb")) (float_literal 70 0)
              eq_refl eq_refl eq_refl) as (_ & Hunit & _ & Hvalue).
  split; [apply Hvalue; reflexivity | exact Hunit].
Defined.

(** 70.005 kg, shown in kilograms, is rendered as 70.0. *)
Lemma state_kilograms_rounds_witness :
  let c := coordinator_with (Return (Some (float_literal 70005 3))) in
  let after := sensor (state "kg" "lb" c "2024-05-01 08:00:00"
                             (weight_sensor (Some "kg") (Some "kg"))) in
  _state after = Some (float_literal 70 0)
  /\ unit_of_measurement "kg" "lb" after = Some "kg".
Proof.
  intros c after.
  destruct (state_kilograms_rounds "kg" "lb" c "2024-05-01 08:00:00"
              (weight_sensor (Some "kg") (Some "kg")) (float_literal 70005 3)
              kg_neq_lb eq_refl eq_refl eq_refl) as (_ & Hunit & Hvalue).
  split; [apply Hvalue; reflexivity | exact Hunit].
Defined.

(** C3, as stated, fails: the input 70.005 is not rendered as 70.01. *)
Lemma state_70005_is_not_7001 :
  let c := coordinator_with (Return (Some (float_literal 70005 3))) in
  let after := sensor (state "kg" "lb" c "2024-05-01 08:00:00"
                             (weight_sensor (Some "kg") (Some "kg"))) in
  _state after <> Some (float_literal 7001 2).
Proof.
  intros c after H.
  apply (f_equal (fun x => match x with
                           | Some f => Prim2SF f
                           | None => S754_nan
                           end)) in H.
  vm_compute in H. discriminate H.
Qed.

(** 150.0 lb, shown in pounds, is rendered as 150.0 lb. *)
Lemma state_passes_through_witness :
  let c := coordinator_with (Return (Some (float_literal 150 0))) in
  let o := state "kg" "lb" c "2024-05-01 08:00:00"
                 (weight_sensor (Some "lb") (Some "lb")) in
  returned o = Return None
  /\ _state (sensor o) = Some (float_literal 150 0)
  /\ unit_of_measurement "kg" "lb" (sensor o) = Some "lb"
  /\ unit "kg" "lb" (sensor o) = Some "lb".
Proof.
  intros c o.
  exact (state_passes_through "kg" "lb" c "2024-05-01 08:00:00"
           (weight_sensor (Some "lb") (Some "lb")) (float_literal 150 0)
           kg_neq_lb lb_not_empty (or_introl (conj eq_refl eq_refl)) eq_refl).
Defined.

(** A sensor without a native unit passes its value through and emits no
    unit, whatever the preference. *)
Example state_passes_through_absent_unit :
  let c := coordinator_with (Return (Some (float_literal 215 1))) in
  let o := state "kg" "lb" c "2024-05-01 08:00:00"
                 (weight_sensor None (Some "lb")) in
  returned o = Return None
  /\ _state (sensor o) = Some (float_literal 215 1)
  /\ unit_of_measurement "kg" "lb" (sensor o) = None
  /\ unit "kg" "lb" (sensor o) = None.
Proof.
  intros c o.
  apply (state_passes_through "kg" "lb" c "2024-05-01 08:00:00"
           (weight_sensor None (Some "lb")) (float_literal 215 1)
           kg_neq_lb lb_not_empty).
  - right. split; discriminate.
  - reflexivity.
Qed.

(** A timeout during the lookup leaves a rendered sensor as it is. *)
Lemma state_never_faults_witness :
  let c := coordinator_with (Return (Some (float_literal 70 0))) in
  let failing := coordinator_with (Raise TimeoutError) in
  let before := sensor (state "kg" "lb" c "2024-05-01 08:00:00"
                              (weight_sensor (Some "kg") (Some "kg"))) in
  let o := state "kg" "lb" failing "2024-05-01 09:00:00" before in
  returned o = Return None
  /\ _state (sensor o) = Some (float_literal 70 0)
  /\ _timestamp (sensor o) = Some "2024-05-01 08:00:00".
Proof.
  intros c failing before o.
  exact (state_never_faults "kg" "lb" failing "2024-05-01 09:00:00" before
           TimeoutError eq_refl eq_refl).
Defined.

(** An exit signal, which is no [Exception], is the one thing that
    propagates out of a state read. *)
Example state_exit_signal_propagates :
  returned (state "kg" "lb" (coordinator_with (Raise (ExitSignal "CancelledError")))
                  "2024-05-01 09:00:00" (weight_sensor (Some "kg") (Some "kg")))
  = Raise (ExitSignal "CancelledError").
Proof. reflexivity. Qed.

(** C2: the state read of a kilogram sensor that obtains 70.0 stores the
    value and the clock reading on the sensor, but the coroutine itself
    returns [None], not the value. *)
Theorem state_returns_none :
  let c := coordinator_with (Return (Some (float_literal 70 0))) in
  let o := state "kg" "lb" c "2024-05-01 08:00:00"
                 (weight_sensor (Some "kg") (Some "kg")) in
  returned o = Return None
  /\ _state (sensor o) = Some (float_literal 70 0)
  /\ _timestamp (sensor o) = Some "2024-05-01 08:00:00".
Proof. vm_compute. repeat split. Qed.

(** An absent metric clears the rendered value and keeps the timestamp. *)
Example state_absent_clears :
  let c := coordinator_with (Return (Some (float_literal 70 0))) in
  let before := sensor (state "kg" "lb" c "2024-05-01 08:00:00"
                              (weight_sensor (Some "kg") (Some "kg"))) in
  let o := state "kg" "lb" (coordinator_with (Return None)) "2024-05-01 09:00:00" before in
  returned o = Return None
  /\ _state (sensor o) = None
  /\ _timestamp (sensor o) = Some "2024-05-01 08:00:00".
Proof. vm_compute. repeat split. Qed.

(** C6, as stated, fails: the display name of the sensor built from the
    weight descriptor is "Renpho Weight", not the descriptor's "Weight". *)
Lemma display_name_is_prefixed :
  let d := weight_descriptor (Some "kg") in
  exists s,
    sensors_list [d] (Some "kg") = [s]
    /\ name s = "Renpho Weight"
    /\ name s <> sd_name d.
Proof.
  intros d. eexists. split; [reflexivity|]. split; [reflexivity|]. discriminate.
Qed.

(** The weight sensor keeps its identity across a successful and a failed
    read. *)
Lemma identity_fields_fixed_witness :
  let reads := [ {| rd_coordinator := coordinator_with (Return (Some (float_literal 70 0)));
                    rd_now := "2024-05-01 08:00:00" |};
                 {| rd_coordinator := coordinator_with (Raise ConnectionError);
                    rd_now := "2024-05-01 09:00:00" |} ] in
  exists s,
    nth_error (sensors_list [weight_descriptor (Some "kg")] (Some "lb")) 0 = Some s
    /\ category (run "kg" "lb" reads s) = "Measurements"
    /\ label (run "kg" "lb" reads s) = "Weight"
    /\ name (run "kg" "lb" reads s) = "Renpho Weight".
Proof.
  intros reads.
  exact (identity_fields_fixed "kg" "lb" [weight_descriptor (Some "kg")] (Some "lb")
           reads 0 (weight_descriptor (Some "kg")) eq_refl).
Defined.

(** 70.0 kg rendered in pounds and read again as pounds stays 154.32. *)
Lemma reconciliation_idempotent_witness :
  let r := float_literal 15432 2 in
  _state (sensor (state "kg" "lb" (coordinator_with (Return (Some r)))
                        "2024-05-01 09:00:00"
                        (weight_sensor (Some "lb") (Some "lb")))) = Some r.
Proof.
  intros r.
  refine (proj2 (reconciliation_idempotent "kg" "lb"
                   (coordinator_with (Return (Some (float_literal 70 0))))
                   (coordinator_with (Return (Some r)))
                   "2024-05-01 08:00:00" "2024-05-01 09:00:00"
                   (weight_sensor (Some "kg") (Some "lb"))
                   (weight_sensor (Some "lb") (Some "lb"))
                   (float_literal 70 0) r
                   kg_neq_lb eq_refl eq_refl eq_refl _ eq_refl eq_refl eq_refl)).
  vm_compute. reflexivity.
Defined.

(** Three sensors asking at once cause one fetch and see one cache. *)
Lemma refresh_coalesces_witness :
  let snapshot : Cache := fun _ => Some (float_literal 70 0) in
  let bmi := init "bmi" "BMI" None "Measurements" "BMI" "bmi" (Some "kg") in
  let fat := init "bodyfat" "Body Fat" (Some "%") "Measurements" "Body Fat" "bodyfat" (Some "kg") in
  let st' := complete_refresh (Return snapshot)
               (fold_left (fun s o => async_update_data o s) [bmi; fat]
                          (async_update_data (weight_sensor (Some "kg") (Some "kg"))
                                             idle_coordinator)) in
  upstream_calls st' = 1%nat
  /\ observed st' = [("weight", cache st'); ("bmi", cache st'); ("bodyfat", cache st')]
  /\ in_flight st' = None.
Proof.
  intros snapshot bmi fat.
  exact (refresh_coalesces idle_coordinator (weight_sensor (Some "kg") (Some "kg"))
           [bmi; fat] (Return snapshot) eq_refl).
Defined.

(** After an absent metric and a timeout the attributes still fail. *)
Lemma attributes_fail_before_first_value_witness :
  let reads := [ {| rd_coordinator := coordinator_with (Return None);
                    rd_now := "2024-05-01 08:00:00" |};
                 {| rd_coordinator := coordinator_with (Raise TimeoutError);
                    rd_now := "2024-05-01 09:00:00" |} ] in
  let s := run "kg" "lb" reads (weight_sensor (Some "kg") (Some "lb")) in
  extra_state_attributes s = Raise AttributeError
  /\ device_state_attributes s = Raise AttributeError.
Proof.
  intros reads s.
  exact (proj2 (attributes_fail_before_first_value "kg" "lb"
                  "weight" "Weight" (Some "kg") "Measurements" "Weight" "weight"
                  (Some "lb") reads eq_refl)).
Defined.

(** Once a read has found a value the attributes are available. *)
Example attributes_after_first_value :
  let c := coordinator_with (Return (Some (float_literal 70 0))) in
  let s := sensor (state "kg" "lb" c "2024-05-01 08:00:00"
                         (weight_sensor (Some "kg") (Some "lb"))) in
  extra_state_attributes s =
    Return {| attr_timestamp := "2024-05-01 08:00:00";
              attr_category := "Measurements";
              attr_label := "Weight" |}.
Proof. reflexivity. Qed.

(** A pound sensor shown with the kilogram preference keeps 150.0 lb. *)
Lemma pounds_never_converted_witness :
  let c := coordinator_with (Return (Some (float_literal 150 0))) in
  let after := sensor (state "kg" "lb" c "2024-05-01 08:00:00"
                             (weight_sensor (Some "lb") (Some "kg"))) in
  _state after = Some (float_literal 150 0)
  /\ unit_of_measurement "kg" "lb" after = Some "lb".
Proof.
  intros c after.
  exact (pounds_never_converted "kg" "lb" c "2024-05-01 08:00:00"
           (weight_sensor (Some "lb") (Some "kg")) (float_literal 150 0)
           kg_neq_lb lb_not_empty eq_refl eq_refl).
Defined.

(** A kilogram sensor shown with the pound preference emits pounds. *)
Lemma unit_of_measurement_two_cases_witness :
  unit_of_measurement "kg" "lb" (weight_sensor (Some "kg") (Some "lb")) = Some "lb".
Proof.
  exact (unit_of_measurement_two_cases "kg" "lb"
           (weight_sensor (Some "kg") (Some "lb")) lb_not_empty).
Defined.

(** For 70.0 kg shown in pounds the unit differs from the native one and the
    value is the converted one. *)
Lemma conversion_follows_unit_witness :
  let c := coordinator_with (Return (Some (float_literal 70 0))) in
  let after := sensor (state "kg" "lb" c "2024-05-01 08:00:00"
                             (weight_sensor (Some "kg") (Some "lb"))) in
  unit_of_measurement "kg" "lb" after <> _unit after
  /\ _state after = Some (round (float_literal 70 0 * KG_TO_LBS)%float 2).
Proof.
  intros c after.
  assert (Hdiff : unit_of_measurement "kg" "lb" after <> _unit after)
    by discriminate.
  split; [exact Hdiff|].
  exact (proj1 (conversion_follows_unit "kg" "lb" c "2024-05-01 08:00:00"
                  (weight_sensor (Some "kg") (Some "lb")) (float_literal 70 0)
                  kg_neq_lb lb_not_empty eq_refl) Hdiff).
Defined.

(** A kilogram sensor with no preference shows 70.005 as it is. *)
Lemma unknown_preference_passes_through_witness :
  let c := coordinator_with (Return (Some (float_literal 70005 3))) in
  let after := sensor (state "kg" "lb" c "2024-05-01 08:00:00"
                             (weight_sensor (Some "kg") None)) in
  _state after = Some (float_literal 70005 3)
  /\ unit_of_measurement "kg" "lb" after = Some "kg".
Proof.
  intros c after.
  refine (unknown_preference_passes_through "kg" "lb" c "2024-05-01 08:00:00"
            (weight_sensor (Some "kg") None) (float_literal 70005 3)
            lb_not_empty _ _ eq_refl); discriminate.
Defined.

(** Reading 70.0 kg after an earlier reading of 80.0 kg gives what reading
    70.0 kg first gives. *)
Lemma state_found_forgets_history_witness :
  let earlier := [ {| rd_coordinator := coordinator_with (Return (Some (float_literal 80 0)));
                      rd_now := "2024-05-01 08:00:00" |} ] in
  let c := coordinator_with (Return (Some (float_literal 70 0))) in
  let s := weight_sensor (Some "kg") (Some "lb") in
  sensor (state "kg" "lb" c "2024-05-01 09:00:00" (run "kg" "lb" earlier s))
  = sensor (state "kg" "lb" c "2024-05-01 09:00:00" s).
Proof.
  intros earlier c s.
  exact (state_found_forgets_history "kg" "lb" c "2024-05-01 09:00:00" earlier s
           (float_literal 70 0) eq_refl).
Defined.

(** With an empty configuration list the missing preference goes unnoticed;
    with one descriptor it raises [KeyError]. *)
Example async_sensors_list_missing_preference :
  let hass := {| data_DOMAIN := Some tt; data_CONF_UNIT_OF_MEASUREMENT := None |} in
  let c := coordinator_with (Return None) in
  async_sensors_list [] hass tt (Some c) = Return []
  /\ async_sensors_list [weight_descriptor (Some "kg")] hass tt (Some c) = Raise KeyError.
Proof. split; reflexivity. Qed.
